(** * api/api_resquest.py: the request schema of the REST catalog client

    The module is declarative: a marker class [RESTRequest] deriving from
    [abc.ABC], and three classes decorated with a bare [@dataclass]
    ([Identifier], [CreateDatabaseRequest], [AlterDatabaseRequest]).  What it
    does at run time is what Python does with such declarations: the
    decorator generates [__init__] and [__eq__], [ABCMeta] decides whether a
    class may be instantiated, and instances are ordinary heap objects whose
    attributes can be assigned.  The development below writes the
    declarations down as data ([decl]), gives the part of Python's object
    model that interprets them, and states the properties of the module over
    that interpretation. *)

From stdpp Require Import base decidable option list gmap sets strings.

(** ** The declarations of the module *)

(** The classes in scope: [object] (the implicit root), [ABC] (imported from
    [abc]) and the four classes the module defines. *)
Inductive pyclass :=
  | object
  | ABC
  | RESTRequest
  | Identifier
  | CreateDatabaseRequest
  | AlterDatabaseRequest.

#[global] Instance pyclass_eq_dec : EqDecision pyclass.
Proof. solve_decision. Defined.

(** The annotations that occur in the module: [str], [Dict[str, str]] and
    [List[str]].  They are recorded with the fields; Python does not check
    them when a value is built. *)
Inductive annotation := Str | DictStrStr | ListStr.

(** The parameters of the [dataclass] decorator that matter here.  A bare
    [@dataclass] is [dataclass(init=True, eq=True, frozen=False)]. *)
Record dataclass_params := {
  dc_init : bool;
  dc_eq : bool;
  dc_frozen : bool
}.

Definition dataclass : dataclass_params :=
  {| dc_init := true; dc_eq := true; dc_frozen := false |}.

(** What a [class] statement of the module contributes: its bases, its
    decorator, its annotated fields in order of declaration, the names it
    marks [@abstractmethod] and the methods its body defines.  The bodies
    of the module define no method at all, [__post_init__] included. *)
Record classdecl := {
  bases : list pyclass;
  decorator : option dataclass_params;
  fields : list (string * annotation);
  abstract : list string;
  methods : list string
}.

Definition decl (c : pyclass) : classdecl :=
  match c with
  | object =>
      {| bases := []; decorator := None; fields := [];
         abstract := []; methods := [] |}
  | ABC =>
      {| bases := [object]; decorator := None; fields := [];
         abstract := []; methods := [] |}
  (* class RESTRequest(ABC): pass *)
  | RESTRequest =>
      {| bases := [ABC]; decorator := None; fields := [];
         abstract := []; methods := [] |}
  (* @dataclass class Identifier: database_name: str; object_name: str *)
  | Identifier =>
      {| bases := [object]; decorator := Some dataclass;
         fields := [("database_name", Str); ("object_name", Str)];
         abstract := []; methods := [] |}
  (* @dataclass class CreateDatabaseRequest(RESTRequest):
       name: str; properties: Dict[str, str] *)
  | CreateDatabaseRequest =>
      {| bases := [RESTRequest]; decorator := Some dataclass;
         fields := [("name", Str); ("properties", DictStrStr)];
         abstract := []; methods := [] |}
  (* @dataclass class AlterDatabaseRequest(RESTRequest):
       removals: List[str]; updates: Dict[str, str] *)
  | AlterDatabaseRequest =>
      {| bases := [RESTRequest]; decorator := Some dataclass;
         fields := [("removals", ListStr); ("updates", DictStrStr)];
         abstract := []; methods := [] |}
  end.

Definition field_names (c : pyclass) : list string := (fields (decl c)).*1.

Definition frozen (c : pyclass) : bool :=
  match decorator (decl c) with Some p => dc_frozen p | None => false end.

Definition generates_init (c : pyclass) : bool :=
  match decorator (decl c) with Some p => dc_init p | None => false end.

Definition generates_eq (c : pyclass) : bool :=
  match decorator (decl c) with Some p => dc_eq p | None => false end.

(** ** Class hierarchy *)

(** The classes reachable from [c] through [bases], [c] first.  The
    hierarchy of the module is four levels deep
    ([CreateDatabaseRequest] < [RESTRequest] < [ABC] < [object]), and no
    class has two bases, so [mro c] is the method resolution order of [c]. *)
Fixpoint ancestors (depth : nat) (c : pyclass) : list pyclass :=
  match depth with
  | 0 => []
  | S n => c :: flat_map (ancestors n) (bases (decl c))
  end.

Definition mro (c : pyclass) : list pyclass := ancestors 4 c.

Definition issubclass (c d : pyclass) : bool := bool_decide (d ∈ mro c).

(** [ABCMeta] computes [__abstractmethods__]: the names the class marks
    abstract, and those inherited as abstract that its body does not
    define. *)
Fixpoint unresolved_abstract (m : list pyclass) : list string :=
  match m with
  | [] => []
  | c :: rest =>
      abstract (decl c) ++
      filter (λ n, (n ∉ methods (decl c)) ∧ (n ∉ abstract (decl c)))
             (unresolved_abstract rest)
  end.

Definition abstractmethods (c : pyclass) : list string :=
  unresolved_abstract (mro c).

(** ** Values, objects and the store *)

Abbreviation loc := nat.

(** A value is an immutable string or a reference to a heap object. *)
Inductive pyval :=
  | VStr (s : string)
  | VRef (l : loc).

#[global] Instance pyval_eq_dec : EqDecision pyval.
Proof. solve_decision. Defined.

(** Heap objects: a dict and a list of the shapes the annotations name, and
    an instance of a class with its attribute dictionary. *)
Inductive pyobj :=
  | ODict (d : gmap string string)
  | OList (xs : list string)
  | OInst (c : pyclass) (attrs : gmap string pyval).

(** The store is the sequence of objects allocated so far; a location is an
    index into it.  Objects are never freed. *)
Abbreviation store := (list pyobj).

(** The exceptions of the model.  [TypeError], [AttributeError],
    [FrozenInstanceError] and [RecursionError] are Python's.
    [ValidationError] and [TypeMismatchError] are the two error kinds the
    specification names; no statement of the module raises them. *)
Inductive exn :=
  | TypeError
  | AttributeError
  | FrozenInstanceError
  | RecursionError
  | ValidationError (field : string)
  | TypeMismatchError.

#[global] Instance exn_eq_dec : EqDecision exn.
Proof. solve_decision. Defined.

Inductive result (A : Type) :=
  | Ok (a : A)
  | Raise (e : exn).
Arguments Ok {A} a.
Arguments Raise {A} e.

(** Computations read and extend the store and may raise. *)
Definition M (A : Type) : Type := store → result A * store.

Definition ret {A} (a : A) : M A := λ σ, (Ok a, σ).

Definition raise {A} (e : exn) : M A := λ σ, (Raise e, σ).

Definition bind {A B} (m : M A) (k : A → M B) : M B := λ σ,
  match m σ with
  | (Ok a, σ') => k a σ'
  | (Raise e, σ') => (Raise e, σ')
  end.

Declare Scope py_scope.
Delimit Scope py_scope with py.
Notation "x <~ m ;; k" := (bind m (λ x, k))
  (at level 100, m at next level, right associativity) : py_scope.
Notation "m ;; k" := (bind m (λ _, k))
  (at level 100, right associativity) : py_scope.
Open Scope py_scope.

Definition lift {A} (e : exn) (o : option A) : M A :=
  match o with Some a => ret a | None => raise e end.

(** Evaluating a list display or a dict display allocates a new object. *)
Definition alloc (o : pyobj) : M pyval := λ σ,
  (Ok (VRef (length σ)), σ ++ [o]).

Definition new_list (xs : list string) : M pyval := alloc (OList xs).

Definition new_dict (d : gmap string string) : M pyval := alloc (ODict d).

(** ** Run-time types *)

Inductive pytype :=
  | TStr
  | TDict
  | TList
  | TInst (c : pyclass).

Definition type_of (σ : store) (v : pyval) : option pytype :=
  match v with
  | VStr _ => Some TStr
  | VRef l =>
      match σ !! l with
      | Some (ODict _) => Some TDict
      | Some (OList _) => Some TList
      | Some (OInst c _) => Some (TInst c)
      | None => None
      end
  end.

(** [isinstance(v, c)] for a class [c] in scope.  Every value is an
    [object]; a string, dict or list is an instance of no other class in
    scope.  The module registers no virtual subclass with [RESTRequest], so
    the check of [ABCMeta] is the check on the hierarchy. *)
Definition isinstance (σ : store) (v : pyval) (c : pyclass) : bool :=
  match type_of σ v with
  | Some (TInst c') => issubclass c' c
  | Some _ => bool_decide (c = object)
  | None => false
  end.

(** ** Attributes *)

(** [v.f], for the data attributes of instances. *)
Definition py_getattr (v : pyval) (f : string) : M pyval := λ σ,
  match v with
  | VRef l =>
      match σ !! l with
      | Some (OInst _ attrs) =>
          match attrs !! f with
          | Some x => (Ok x, σ)
          | None => (Raise AttributeError, σ)
          end
      | _ => (Raise AttributeError, σ)
      end
  | VStr _ => (Raise AttributeError, σ)
  end.

(** [object.__setattr__(v, f, x)]: the instance dictionary is updated in
    place.  Strings, dicts and lists have no instance dictionary. *)
Definition object_setattr (v : pyval) (f : string) (x : pyval) : M unit := λ σ,
  match v with
  | VRef l =>
      match σ !! l with
      | Some (OInst c attrs) => (Ok (), <[l := OInst c (<[f := x]> attrs)]> σ)
      | _ => (Raise AttributeError, σ)
      end
  | VStr _ => (Raise AttributeError, σ)
  end.

(** [v.f = x].  A dataclass declared with [frozen=True] is given a
    [__setattr__] that raises [FrozenInstanceError]; every other class of
    the module inherits [object.__setattr__]. *)
Definition py_setattr (v : pyval) (f : string) (x : pyval) : M unit := λ σ,
  match type_of σ v with
  | Some (TInst c) =>
      if frozen c then (Raise FrozenInstanceError, σ)
      else object_setattr v f x σ
  | _ => (Raise AttributeError, σ)
  end.

(** [d[k] = x] on a dict, as a caller may do on the dict it passed to a
    constructor. *)
Definition dict_setitem (v : pyval) (k x : string) : M unit := λ σ,
  match v with
  | VRef l =>
      match σ !! l with
      | Some (ODict d) => (Ok (), <[l := ODict (<[k := x]> d)]> σ)
      | _ => (Raise TypeError, σ)
      end
  | VStr _ => (Raise TypeError, σ)
  end.

(** ** Instantiation *)

(** Binding the arguments of a call to the parameters of the generated
    [__init__(self, f1, ..., fn)]: positional arguments fill the parameters
    from the left, the others are taken from the keywords.  [None] stands
    for the [TypeError] of a missing, repeated or unexpected argument. *)
Fixpoint bind_args (params : list string) (pos : list pyval)
    (kw : gmap string pyval) : option (list (string * pyval)) :=
  match params, pos with
  | [], [] => if decide (kw = ∅) then Some [] else None
  | [], _ :: _ => None
  | p :: ps, x :: xs =>
      match kw !! p with
      | Some _ => None
      | None => ((p, x) ::.) <$> bind_args ps xs kw
      end
  | p :: ps, [] =>
      match kw !! p with
      | Some x => ((p, x) ::.) <$> bind_args ps [] (delete p kw)
      | None => None
      end
  end.

(** The body of the generated [__init__]: [self.f = f] for each field, in
    order.  It is all the body there is: no class of the module defines
    [__post_init__], and the annotations are not consulted.  (In a frozen
    dataclass the body calls [object.__setattr__] by name; in the others the
    assignment reaches it through the class.) *)
Fixpoint init_fields (self : pyval) (bound : list (string * pyval)) : M unit :=
  match bound with
  | [] => ret ()
  | (f, x) :: rest => object_setattr self f x ;; init_fields self rest
  end.

Definition dataclass_init (c : pyclass) (self : pyval) (pos : list pyval)
    (kw : gmap string pyval) : M unit :=
  bound <~ lift TypeError (bind_args (field_names c) pos kw) ;;
  init_fields self bound.

(** Arguments beyond the class itself. *)
Definition excess_args (pos : list pyval) (kw : gmap string pyval) : bool :=
  negb (bool_decide (pos = [] ∧ kw = ∅)).

(** [object.__init__] accepts no argument beyond [self]. *)
Definition object_init (pos : list pyval) (kw : gmap string pyval) : M unit :=
  if excess_args pos kw then raise TypeError else ret ().

(** [object.__new__(c, ...)]: it refuses arguments when the class has no
    [__init__] of its own to take them, and it refuses a class that has
    abstract methods left, with [TypeError] both times; otherwise it
    returns a new instance with an empty dictionary.  No class of the module
    derives from a dataclass, so a class has an [__init__] of its own exactly
    when it is decorated itself. *)
Definition object_new (c : pyclass) (pos : list pyval)
    (kw : gmap string pyval) : M pyval :=
  if excess_args pos kw && negb (generates_init c) then raise TypeError
  else
    match abstractmethods c with
    | [] => alloc (OInst c ∅)
    | _ :: _ => raise TypeError
    end.

(** Calling the class [c] with positional arguments [pos] and keyword
    arguments [kw]: [__new__], then [__init__] on the new object. *)
Definition call (c : pyclass) (pos : list pyval) (kw : gmap string pyval)
    : M pyval :=
  self <~ object_new c pos kw ;;
  (if generates_init c then dataclass_init c self pos kw
   else object_init pos kw) ;;
  ret self.

(** ** Equality *)

(** [x is y or x == y], the comparison of the items of two tuples. *)
Definition identical_or (eq : pyval → pyval → result bool) (x y : pyval)
    : result bool :=
  match x, y with
  | VRef l1, VRef l2 => if decide (l1 = l2) then Ok true else eq x y
  | _, _ => eq x y
  end.

(** Tuples are equal when they have the same length and equal items; the
    comparison stops at the first pair of items that differ. *)
Fixpoint tuple_eq (eq : pyval → pyval → result bool) (t1 t2 : list pyval)
    : result bool :=
  match t1, t2 with
  | [], [] => Ok true
  | x :: xs, y :: ys =>
      match identical_or eq x y with
      | Ok true => tuple_eq eq xs ys
      | Ok false => Ok false
      | Raise e => Raise e
      end
  | _, _ => Ok false
  end.

(** [(self.f1, ..., self.fn)]; [None] when an attribute is missing. *)
Definition astuple (c : pyclass) (attrs : gmap string pyval)
    : option (list pyval) :=
  mapM (λ f, attrs !! f) (field_names c).

(** [v == w].  Strings compare by content, dicts and lists of strings by
    content, two instances of one dataclass generated with [eq=True] by the
    tuples of their fields, and everything else by identity (both [__eq__]
    return [NotImplemented]).  [depth] is the interpreter's recursion
    limit. *)
Fixpoint py_eq (depth : nat) (σ : store) (v w : pyval) : result bool :=
  match depth with
  | 0 => Raise RecursionError
  | S n =>
      match v, w with
      | VStr a, VStr b => Ok (bool_decide (a = b))
      | VRef l1, VRef l2 =>
          match σ !! l1, σ !! l2 with
          | Some (ODict d1), Some (ODict d2) => Ok (bool_decide (d1 = d2))
          | Some (OList xs1), Some (OList xs2) => Ok (bool_decide (xs1 = xs2))
          | Some (OInst c1 a1), Some (OInst c2 a2) =>
              if generates_eq c1 && bool_decide (c1 = c2) then
                match astuple c1 a1, astuple c1 a2 with
                | Some t1, Some t2 => tuple_eq (py_eq n σ) t1 t2
                | _, _ => Raise AttributeError
                end
              else Ok (bool_decide (l1 = l2))
          | _, _ => Ok (bool_decide (l1 = l2))
          end
      | _, _ => Ok false
      end
  end.

(** ** Constructor expressions *)

(** [Identifier(database_name=d, object_name=o)] *)
Definition new_Identifier (d o : string) : M pyval :=
  call Identifier [] {[ "database_name" := VStr d; "object_name" := VStr o ]}.

(** [CreateDatabaseRequest(name=n, properties={...})] *)
Definition new_CreateDatabaseRequest (n : string) (p : gmap string string)
    : M pyval :=
  props <~ new_dict p ;;
  call CreateDatabaseRequest [] {[ "name" := VStr n; "properties" := props ]}.

(** [AlterDatabaseRequest(removals=[...], updates={...})] *)
Definition new_AlterDatabaseRequest (rs : list string) (us : gmap string string)
    : M pyval :=
  r <~ new_list rs ;;
  u <~ new_dict us ;;
  call AlterDatabaseRequest [] {[ "removals" := r; "updates" := u ]}.

(** ** Classification *)

(** The request variants the data model lists under [RESTRequest]. *)
Definition known_variants : list pyclass :=
  [CreateDatabaseRequest; AlterDatabaseRequest].

(** Modelled from the spec: [classify_as_request] is not defined in
    api_resquest.py.  Section 4.1 describes it as the check that generic
    dispatch code runs on a value before routing it: it answers true for a
    value that is one of the known request variants and fails with
    [TypeMismatchError] for any other value. *)
Definition classify_as_request (v : pyval) : M bool := λ σ,
  match type_of σ v with
  | Some (TInst c) =>
      if bool_decide (c ∈ known_variants) then (Ok true, σ)
      else (Raise TypeMismatchError, σ)
  | _ => (Raise TypeMismatchError, σ)
  end.

(** ** Reading instances back from the store *)

Definition instance_at (σ : store) (v : pyval) (c : pyclass)
    (attrs : gmap string pyval) : Prop :=
  ∃ l, v = VRef l ∧ σ !! l = Some (OInst c attrs).

Definition holds_dict (σ : store) (attrs : gmap string pyval) (f : string)
    (d : gmap string string) : Prop :=
  ∃ r, attrs !! f = Some (VRef r) ∧ σ !! r = Some (ODict d).

Definition holds_list (σ : store) (attrs : gmap string pyval) (f : string)
    (xs : list string) : Prop :=
  ∃ r, attrs !! f = Some (VRef r) ∧ σ !! r = Some (OList xs).

(** [v] is an [Identifier] whose fields are the strings [d] and [o]. *)
Definition is_Identifier (σ : store) (v : pyval) (d o : string) : Prop :=
  ∃ attrs, instance_at σ v Identifier attrs ∧
    attrs !! "database_name" = Some (VStr d) ∧
    attrs !! "object_name" = Some (VStr o).

(** [v] is a [CreateDatabaseRequest] whose [name] is the string [n] and
    whose [properties] is a dict with the entries [p]. *)
Definition is_CreateDatabaseRequest (σ : store) (v : pyval) (n : string)
    (p : gmap string string) : Prop :=
  ∃ attrs, instance_at σ v CreateDatabaseRequest attrs ∧
    attrs !! "name" = Some (VStr n) ∧
    holds_dict σ attrs "properties" p.

(** [v] is an [AlterDatabaseRequest] whose [removals] is a list with the
    items [rs] and whose [updates] is a dict with the entries [us]. *)
Definition is_AlterDatabaseRequest (σ : store) (v : pyval) (rs : list string)
    (us : gmap string string) : Prop :=
  ∃ attrs, instance_at σ v AlterDatabaseRequest attrs ∧
    holds_list σ attrs "removals" rs ∧
    holds_dict σ attrs "updates" us.

(** [set(v.removals)], what a consumer that deduplicates the removals of a
    request computes before applying them. *)
Definition removals_set (σ : store) (v : pyval) : option (gset string) :=
  match py_getattr v "removals" σ with
  | (Ok (VRef r), _) =>
      match σ !! r with
      | Some (OList xs) => Some (list_to_set xs)
      | _ => None
      end
  | _ => None
  end.

(** Every field of [v], an instance of [c], can be assigned: for each
    field [f] of [c] and each value [x], the assignment [v.f = x] succeeds
    and [v.f] then reads [x]. *)
Definition assignable (σ : store) (v : pyval) (c : pyclass) : Prop :=
  Forall
    (λ f, ∀ x, ∃ σ', py_setattr v f x σ = (Ok (), σ') ∧
                     py_getattr v f σ' = (Ok x, σ'))
    (field_names c).

(** The outcome of a computation is a [ValidationError]. *)
Definition raises_ValidationError {A} (r : result A * store) : Prop :=
  ∃ f, r.1 = Raise (ValidationError f).

(** ** Calls that the generated [__init__] accepts *)

(** The arguments fit the parameters: there are no more positional
    arguments than parameters, and the keywords are the names of the
    parameters that the positional arguments leave, each once. *)
Definition accepted (params : list string) (pos : list pyval)
    (kw : gmap string pyval) : Prop :=
  length pos ≤ length params ∧
  dom kw = list_to_set (drop (length pos) params).

#[global] Instance accepted_dec params pos kw : Decision (accepted params pos kw).
Proof. unfold accepted. apply _. Defined.

(** The arguments of an accepted call in the order of the parameters. *)
Definition arguments_in_order (params : list string) (pos : list pyval)
    (kw : gmap string pyval) : list pyval :=
  pos ++ omap (λ f, kw !! f) (drop (length pos) params).

(** ** The class hierarchy and instantiation *)

Lemma ancestors_depth (k : nat) (c : pyclass) : ancestors (4 + k) c = mro c.
Proof. by destruct c. Qed.

Lemma abstractmethods_none (c : pyclass) : abstractmethods c = [].
Proof. by destruct c. Qed.

Lemma object_new_eq (c : pyclass) (pos : list pyval) (kw : gmap string pyval)
    (σ : store) :
  excess_args pos kw && negb (generates_init c) = false →
  object_new c pos kw σ = (Ok (VRef (length σ)), σ ++ [OInst c ∅]).
Proof. intros Hargs. unfold object_new. by rewrite Hargs, abstractmethods_none. Qed.

Lemma lookup_last_alloc (σ : store) (o : pyobj) : (σ ++ [o]) !! length σ = Some o.
Proof. by rewrite lookup_app_r, Nat.sub_diag. Qed.

Lemma insert_last_alloc (σ : store) (o o' : pyobj) :
  <[length σ := o']> (σ ++ [o]) = σ ++ [o'].
Proof. by rewrite insert_app_r_alt, Nat.sub_diag. Qed.

Lemma object_setattr_last (σ : store) (c : pyclass) (attrs : gmap string pyval)
    (f : string) (x : pyval) :
  object_setattr (VRef (length σ)) f x (σ ++ [OInst c attrs]) =
  (Ok (), σ ++ [OInst c (<[f := x]> attrs)]).
Proof.
  unfold object_setattr. by rewrite lookup_last_alloc, insert_last_alloc.
Qed.

(** The generated [__init__] leaves, in the dictionary of the new object,
    each bound argument under its field name. *)
Lemma init_fields_last (bound : list (string * pyval)) (σ : store)
    (c : pyclass) (attrs : gmap string pyval) :
  init_fields (VRef (length σ)) bound (σ ++ [OInst c attrs]) =
  (Ok (), σ ++ [OInst c (foldl (λ a fx, <[fx.1 := fx.2]> a) attrs bound)]).
Proof.
  revert attrs. induction bound as [|[f x] bound IH]; intros attrs; [done|].
  simpl. unfold bind. rewrite object_setattr_last. apply IH.
Qed.

(** Calling a dataclass of the module: the arguments are bound to the
    fields, and nothing else decides the outcome. *)
Lemma call_dataclass (c : pyclass) (pos : list pyval) (kw : gmap string pyval)
    (σ : store) :
  generates_init c = true →
  call c pos kw σ =
    match bind_args (field_names c) pos kw with
    | Some bound =>
        (Ok (VRef (length σ)),
         σ ++ [OInst c (foldl (λ a fx, <[fx.1 := fx.2]> a) ∅ bound)])
    | None => (Raise TypeError, σ ++ [OInst c ∅])
    end.
Proof.
  intros Hinit. unfold call, bind.
  rewrite object_new_eq, Hinit by (rewrite Hinit; apply andb_false_r).
  unfold dataclass_init, bind, lift.
  destruct (bind_args _ _ _) as [bound|]; simpl; [|done].
  unfold ret. by rewrite init_fields_last.
Qed.

(** Two keyword arguments naming the two parameters, in either order of
    writing, are bound to them in the order of the parameters. *)
Lemma bind_args_keywords (f g : string) (x y : pyval) :
  f ≠ g →
  bind_args [f; g] [] {[ f := x; g := y ]} = Some [(f, x); (g, y)].
Proof.
  intros Hfg. simpl. rewrite lookup_insert_eq. simpl.
  rewrite delete_insert_eq, delete_singleton_ne by done.
  rewrite lookup_singleton_eq. simpl.
  rewrite delete_singleton_eq. by rewrite decide_True.
Qed.

(** Two positional arguments are bound to the two parameters from the
    left. *)
Lemma bind_args_positional (f g : string) (x y : pyval) :
  bind_args [f; g] [x; y] ∅ = Some [(f, x); (g, y)].
Proof. simpl. rewrite !lookup_empty. simpl. by rewrite decide_True. Qed.

Lemma new_Identifier_eq (d o : string) (σ : store) :
  new_Identifier d o σ =
  (Ok (VRef (length σ)),
   σ ++ [OInst Identifier
           {[ "database_name" := VStr d; "object_name" := VStr o ]}]).
Proof.
  unfold new_Identifier. rewrite call_dataclass by done.
  change (field_names Identifier) with ["database_name"; "object_name"].
  by rewrite bind_args_keywords.
Qed.

Lemma lookup_alloc_0 (σ τ : store) (o : pyobj) :
  (σ ++ o :: τ) !! length σ = Some o.
Proof. by apply list_lookup_middle. Qed.

Lemma lookup_alloc_1 (σ τ : store) (o1 o2 : pyobj) :
  (σ ++ o1 :: o2 :: τ) !! S (length σ) = Some o2.
Proof.
  rewrite (cons_middle o1), app_assoc.
  apply list_lookup_middle. rewrite length_app. simpl. lia.
Qed.

Lemma lookup_alloc_2 (σ τ : store) (o1 o2 o3 : pyobj) :
  (σ ++ o1 :: o2 :: o3 :: τ) !! S (S (length σ)) = Some o3.
Proof.
  rewrite (cons_middle o1), app_assoc.
  rewrite <- (lookup_alloc_1 (σ ++ [o1]) τ o2 o3).
  f_equal. rewrite length_app. simpl. lia.
Qed.

Lemma new_CreateDatabaseRequest_eq (n : string) (p : gmap string string)
    (σ : store) :
  new_CreateDatabaseRequest n p σ =
  (Ok (VRef (S (length σ))),
   σ ++ [ODict p;
         OInst CreateDatabaseRequest
           {[ "name" := VStr n; "properties" := VRef (length σ) ]}]).
Proof.
  unfold new_CreateDatabaseRequest, new_dict, alloc, bind.
  rewrite call_dataclass by done.
  change (field_names CreateDatabaseRequest) with ["name"; "properties"].
  rewrite bind_args_keywords by done.
  rewrite length_app, Nat.add_1_r, <- app_assoc. done.
Qed.

Lemma new_AlterDatabaseRequest_eq (rs : list string) (us : gmap string string)
    (σ : store) :
  new_AlterDatabaseRequest rs us σ =
  (Ok (VRef (S (S (length σ)))),
   σ ++ [OList rs; ODict us;
         OInst AlterDatabaseRequest
           {[ "removals" := VRef (length σ);
              "updates" := VRef (S (length σ)) ]}]).
Proof.
  unfold new_AlterDatabaseRequest, new_list, new_dict, alloc, bind.
  rewrite call_dataclass by done.
  change (field_names AlterDatabaseRequest) with ["removals"; "updates"].
  rewrite bind_args_keywords by done.
  rewrite !length_app, !Nat.add_1_r, <- !app_assoc. done.
Qed.

Lemma new_Identifier_is (d o : string) (σ : store) :
  ∃ v σ', new_Identifier d o σ = (Ok v, σ') ∧ is_Identifier σ' v d o.
Proof.
  eexists _, _. split; [apply new_Identifier_eq|].
  eexists. split; [eexists; split; [done|apply lookup_alloc_0]|done].
Qed.

Lemma new_CreateDatabaseRequest_is (n : string) (p : gmap string string)
    (σ : store) :
  ∃ v σ', new_CreateDatabaseRequest n p σ = (Ok v, σ') ∧
          is_CreateDatabaseRequest σ' v n p.
Proof.
  eexists _, _. split; [apply new_CreateDatabaseRequest_eq|].
  eexists. split; [eexists; split; [done|apply lookup_alloc_1]|].
  split; [done|]. eexists. split; [done|apply lookup_alloc_0].
Qed.

Lemma new_AlterDatabaseRequest_is (rs : list string) (us : gmap string string)
    (σ : store) :
  ∃ v σ', new_AlterDatabaseRequest rs us σ = (Ok v, σ') ∧
          is_AlterDatabaseRequest σ' v rs us.
Proof.
  eexists _, _. split; [apply new_AlterDatabaseRequest_eq|].
  eexists. split; [eexists; split; [done|apply lookup_alloc_2]|].
  split; (eexists; split; [done|]); [apply lookup_alloc_0|apply lookup_alloc_1].
Qed.

(** A call touches no object of the store it starts from.  When it returns
    a value, the value is the one object it has added. *)
Lemma call_outcome (c : pyclass) (pos : list pyval) (kw : gmap string pyval)
    (σ : store) :
  ∃ τ, (call c pos kw σ).2 = σ ++ τ ∧
    ∀ v, (call c pos kw σ).1 = Ok v →
      v = VRef (length σ) ∧ ∃ attrs, τ = [OInst c attrs].
Proof.
  destruct (generates_init c) eqn:Hinit.
  - rewrite call_dataclass by done.
    destruct (bind_args _ _ _); eexists; (split; [done|]); simpl; [|done].
    intros v [= <-]. eauto.
  - unfold call, bind, object_new, object_init. rewrite Hinit, andb_true_r.
    destruct (excess_args pos kw); simpl.
    + exists []. by rewrite app_nil_r.
    + rewrite abstractmethods_none. simpl.
      eexists. split; [done|]. intros v [= <-]. eauto.
Qed.

Lemma call_result (c : pyclass) (pos : list pyval) (kw : gmap string pyval)
    (σ σ' : store) (v : pyval) :
  call c pos kw σ = (Ok v, σ') →
  ∃ attrs, v = VRef (length σ) ∧ σ' = σ ++ [OInst c attrs].
Proof.
  intros Hcall. destruct (call_outcome c pos kw σ) as (τ & Hσ & Hv).
  rewrite Hcall in Hσ, Hv. simpl in *.
  destruct (Hv v eq_refl) as (-> & attrs & ->). eauto.
Qed.

(** ** Attribute assignment *)

(** No class of the module is declared [frozen]. *)
Lemma frozen_none (c : pyclass) : frozen c = false.
Proof. by destruct c. Qed.

Lemma assign_then_read (σ : store) (l : loc) (c : pyclass)
    (attrs : gmap string pyval) (f : string) (x : pyval) :
  σ !! l = Some (OInst c attrs) →
  py_setattr (VRef l) f x σ = (Ok (), <[l := OInst c (<[f := x]> attrs)]> σ) ∧
  py_getattr (VRef l) f (<[l := OInst c (<[f := x]> attrs)]> σ) =
    (Ok x, <[l := OInst c (<[f := x]> attrs)]> σ).
Proof.
  intros Hl. unfold py_setattr, py_getattr, object_setattr. simpl.
  rewrite Hl, frozen_none. split; [done|].
  rewrite list_lookup_insert_eq by (by eapply lookup_lt_Some).
  by rewrite lookup_insert_eq.
Qed.

(** ** Equality of field values *)

Lemma identical_or_str (k : nat) (σ : store) (a b : string) :
  identical_or (py_eq (S k) σ) (VStr a) (VStr b) = Ok (bool_decide (a = b)).
Proof. done. Qed.

Lemma identical_or_dict (k : nat) (σ : store) (r1 r2 : loc)
    (d1 d2 : gmap string string) :
  σ !! r1 = Some (ODict d1) → σ !! r2 = Some (ODict d2) →
  identical_or (py_eq (S k) σ) (VRef r1) (VRef r2) = Ok (bool_decide (d1 = d2)).
Proof.
  intros H1 H2. unfold identical_or. case_decide as Hr.
  - subst r2. rewrite H1 in H2. injection H2 as ->. by rewrite bool_decide_eq_true_2.
  - simpl. by rewrite H1, H2.
Qed.

Lemma identical_or_list (k : nat) (σ : store) (r1 r2 : loc)
    (xs1 xs2 : list string) :
  σ !! r1 = Some (OList xs1) → σ !! r2 = Some (OList xs2) →
  identical_or (py_eq (S k) σ) (VRef r1) (VRef r2) = Ok (bool_decide (xs1 = xs2)).
Proof.
  intros H1 H2. unfold identical_or. case_decide as Hr.
  - subst r2. rewrite H1 in H2. injection H2 as ->. by rewrite bool_decide_eq_true_2.
  - simpl. by rewrite H1, H2.
Qed.

(** Two tuples of two items each. *)
Lemma tuple_eq_pair (eq : pyval → pyval → result bool) (x1 y1 x2 y2 : pyval)
    (P Q : Prop) `{Decision P, Decision Q} :
  identical_or eq x1 x2 = Ok (bool_decide P) →
  identical_or eq y1 y2 = Ok (bool_decide Q) →
  tuple_eq eq [x1; y1] [x2; y2] = Ok (bool_decide (P ∧ Q)).
Proof.
  intros Hx Hy. simpl. rewrite Hx.
  destruct (decide P) as [HP|HP].
  - rewrite (bool_decide_eq_true_2 P HP), Hy.
    destruct (decide Q) as [HQ|HQ].
    + by rewrite (bool_decide_eq_true_2 Q HQ), bool_decide_eq_true_2.
    + rewrite (bool_decide_eq_false_2 Q HQ), bool_decide_eq_false_2; tauto.
  - rewrite (bool_decide_eq_false_2 P HP), bool_decide_eq_false_2; tauto.
Qed.

(** The generated [__eq__] on two instances of one dataclass of the module
    with two fields [f] and [g]. *)
Lemma py_eq_instances (k : nat) (σ : store) (c : pyclass) (l1 l2 : loc)
    (a1 a2 : gmap string pyval) (t1 t2 : list pyval) :
  generates_eq c = true →
  σ !! l1 = Some (OInst c a1) → σ !! l2 = Some (OInst c a2) →
  astuple c a1 = Some t1 → astuple c a2 = Some t2 →
  py_eq (S k) σ (VRef l1) (VRef l2) = tuple_eq (py_eq k σ) t1 t2.
Proof.
  intros Heq H1 H2 Ht1 Ht2. simpl.
  by rewrite H1, H2, Heq, bool_decide_eq_true_2, Ht1, Ht2.
Qed.

Lemma assignable_instance (σ : store) (l : loc) (c : pyclass)
    (attrs : gmap string pyval) :
  σ !! l = Some (OInst c attrs) → assignable σ (VRef l) c.
Proof.
  intros Hl. apply Forall_forall. intros f _ x.
  eexists. apply (assign_then_read σ l c attrs f x Hl).
Qed.

Lemma getattr_instance (σ : store) (l : loc) (c : pyclass)
    (attrs : gmap string pyval) (f : string) (x : pyval) :
  σ !! l = Some (OInst c attrs) → attrs !! f = Some x →
  py_getattr (VRef l) f σ = (Ok x, σ).
Proof. intros Hl Hf. unfold py_getattr. by rewrite Hl, Hf. Qed.

(** * Properties of the module *)

(** ** Construction *)

(** C4: for all non-empty strings [d] and [o],
    [Identifier(database_name=d, object_name=o)] succeeds, and the fields
    of the value read back exactly [d] and [o]: nothing is normalised or
    trimmed. *)
Theorem Identifier_fields_round_trip (σ : store) (d o : string) :
  d ≠ "" → o ≠ "" →
  ∃ v σ', new_Identifier d o σ = (Ok v, σ') ∧
    py_getattr v "database_name" σ' = (Ok (VStr d), σ') ∧
    py_getattr v "object_name" σ' = (Ok (VStr o), σ').
Proof.
  intros _ _. eexists _, _. split; [apply new_Identifier_eq|].
  split; eapply getattr_instance; solve [apply lookup_alloc_0 | done].
Qed.

Lemma Identifier_fields_round_trip_witness :
  ∃ v σ', new_Identifier " Sales " "orders" [] = (Ok v, σ') ∧
    py_getattr v "database_name" σ' = (Ok (VStr " Sales "), σ') ∧
    py_getattr v "object_name" σ' = (Ok (VStr "orders"), σ').
Proof.
  apply (Identifier_fields_round_trip [] " Sales " "orders"); discriminate.
Defined.

(** C9: construction is total.  For all strings, all mappings and all
    sequences, whatever they contain (empty strings, empty keys, keys that
    occur in both [removals] and [updates]), each of the three constructors
    returns a value, and the value holds the arguments as they were given:
    no check is made on them. *)
Theorem construction_total :
  (∀ σ d o, ∃ v σ',
     new_Identifier d o σ = (Ok v, σ') ∧ is_Identifier σ' v d o) ∧
  (∀ σ n p, ∃ v σ',
     new_CreateDatabaseRequest n p σ = (Ok v, σ') ∧
     is_CreateDatabaseRequest σ' v n p) ∧
  (∀ σ rs us, ∃ v σ',
     new_AlterDatabaseRequest rs us σ = (Ok v, σ') ∧
     is_AlterDatabaseRequest σ' v rs us).
Proof.
  split; [|split]; intros.
  - apply new_Identifier_is.
  - apply new_CreateDatabaseRequest_is.
  - apply new_AlterDatabaseRequest_is.
Qed.

(** C1, as the code has it: an [AlterDatabaseRequest] is built from every
    removals sequence and updates mapping with non-empty entries and keys,
    whether or not a key occurs in both, and holds the two as given. *)
Theorem AlterDatabaseRequest_keeps_conflicts (σ : store) (rs : list string)
    (us : gmap string string) :
  Forall (λ k, k ≠ "") rs → "" ∉ dom us →
  ∃ v σ', new_AlterDatabaseRequest rs us σ = (Ok v, σ') ∧
    is_AlterDatabaseRequest σ' v rs us ∧
    ¬ raises_ValidationError (new_AlterDatabaseRequest rs us σ).
Proof.
  intros _ _. destruct (new_AlterDatabaseRequest_is rs us σ) as (v & σ' & Hnew & His).
  exists v, σ'. split; [done|]. split; [done|].
  rewrite Hnew. intros [f Hf]. discriminate.
Qed.

(** Scenario 4 ([removals=["legacy_flag"]], [updates={"region":"us-east"}])
    and scenario 3 ([removals=["owner"]], [updates={"owner":"team_b"}]). *)
Lemma AlterDatabaseRequest_keeps_conflicts_witness :
  (∃ v σ',
     new_AlterDatabaseRequest ["legacy_flag"] {[ "region" := "us-east" ]} []
       = (Ok v, σ') ∧
     is_AlterDatabaseRequest σ' v ["legacy_flag"] {[ "region" := "us-east" ]} ∧
     ¬ raises_ValidationError
         (new_AlterDatabaseRequest ["legacy_flag"] {[ "region" := "us-east" ]} [])) ∧
  (∃ v σ',
     new_AlterDatabaseRequest ["owner"] {[ "owner" := "team_b" ]} []
       = (Ok v, σ') ∧
     is_AlterDatabaseRequest σ' v ["owner"] {[ "owner" := "team_b" ]} ∧
     ¬ raises_ValidationError
         (new_AlterDatabaseRequest ["owner"] {[ "owner" := "team_b" ]} [])).
Proof.
  split.
  - apply (AlterDatabaseRequest_keeps_conflicts [] ["legacy_flag"]
             {[ "region" := "us-east" ]}).
    + repeat constructor; discriminate.
    + vm_compute. intros H. discriminate H.
  - apply (AlterDatabaseRequest_keeps_conflicts [] ["owner"]
             {[ "owner" := "team_b" ]}).
    + repeat constructor; discriminate.
    + vm_compute. intros H. discriminate H.
Defined.

(** C1 fails on scenario 3: the key ["owner"] is in both [removals] and
    [updates], and the construction returns a value. *)
Lemma AlterDatabaseRequest_conflict_not_rejected :
  "owner" ∈ ["owner"] ∧
  "owner" ∈ dom ({[ "owner" := "team_b" ]} : gmap string string) ∧
  ¬ raises_ValidationError
      (new_AlterDatabaseRequest ["owner"] {[ "owner" := "team_b" ]} []).
Proof.
  split; [by left|]. split; [set_solver|].
  rewrite new_AlterDatabaseRequest_eq. intros [f Hf]. discriminate.
Qed.

(** C2, as the code has it: when [database_name] or [object_name] is the
    empty string, [Identifier] is built all the same and holds the empty
    string in that field; no [ValidationError] is raised. *)
Theorem Identifier_keeps_empty_names (σ : store) (d o : string) :
  d = "" ∨ o = "" →
  ∃ v σ', new_Identifier d o σ = (Ok v, σ') ∧ is_Identifier σ' v d o ∧
    ¬ raises_ValidationError (new_Identifier d o σ).
Proof.
  intros _. destruct (new_Identifier_is d o σ) as (v & σ' & Hnew & His).
  exists v, σ'. split; [done|]. split; [done|].
  rewrite Hnew. intros [f Hf]. discriminate.
Qed.

Lemma Identifier_keeps_empty_names_witness :
  ∃ v σ', new_Identifier "" "orders" [] = (Ok v, σ') ∧
    is_Identifier σ' v "" "orders" ∧
    ¬ raises_ValidationError (new_Identifier "" "orders" []).
Proof.
  apply (Identifier_keeps_empty_names [] "" "orders"). left. reflexivity.
Defined.

(** C2 fails for [Identifier(database_name="", object_name="orders")] and
    for [Identifier(database_name="sales", object_name="")]: both return a
    value. *)
Lemma Identifier_empty_name_not_rejected :
  ¬ raises_ValidationError (new_Identifier "" "orders" []) ∧
  ¬ raises_ValidationError (new_Identifier "sales" "" []).
Proof.
  rewrite !new_Identifier_eq. split; intros [f Hf]; discriminate.
Qed.

(** C3, as the code has it: [CreateDatabaseRequest(name="", properties=p)]
    is built for every mapping [p], [{}] included, and its [name] is the
    empty string; no [ValidationError] is raised. *)
Theorem CreateDatabaseRequest_keeps_empty_name (σ : store)
    (p : gmap string string) :
  ∃ v σ', new_CreateDatabaseRequest "" p σ = (Ok v, σ') ∧
    is_CreateDatabaseRequest σ' v "" p ∧
    py_getattr v "name" σ' = (Ok (VStr ""), σ') ∧
    ¬ raises_ValidationError (new_CreateDatabaseRequest "" p σ).
Proof.
  eexists _, _. split; [apply new_CreateDatabaseRequest_eq|].
  split; [|split].
  - eexists. split; [eexists; split; [done|apply lookup_alloc_1]|].
    split; [done|]. eexists. split; [done|apply lookup_alloc_0].
  - eapply getattr_instance; [apply lookup_alloc_1|done].
  - rewrite new_CreateDatabaseRequest_eq. intros [f Hf]. discriminate.
Qed.

(** C3 fails for [CreateDatabaseRequest(name="", properties={})]: the
    outcome is a value, not a [ValidationError] naming [name]. *)
Lemma CreateDatabaseRequest_empty_name_not_rejected :
  (new_CreateDatabaseRequest "" ∅ []).1 = Ok (VRef 1) ∧
  (new_CreateDatabaseRequest "" ∅ []).1 ≠ Raise (ValidationError "name").
Proof. rewrite new_CreateDatabaseRequest_eq. split; [done|discriminate]. Qed.

(** ** Classification *)

(** C5: every value that a call of [CreateDatabaseRequest] or of
    [AlterDatabaseRequest] returns is an instance of [RESTRequest], and
    [classify_as_request] answers true on it; so it does for a
    [CreateDatabaseRequest] with a non-empty name and non-empty property
    keys.  On a value of any other type, an [Identifier] for one,
    [classify_as_request] fails with [TypeMismatchError]. *)
Theorem classify_as_request_variants :
  (∀ c pos kw σ v σ',
     c ∈ known_variants → call c pos kw σ = (Ok v, σ') →
     isinstance σ' v RESTRequest = true ∧
     classify_as_request v σ' = (Ok true, σ')) ∧
  (∀ σ n p,
     n ≠ "" → "" ∉ dom p →
     ∃ v σ', new_CreateDatabaseRequest n p σ = (Ok v, σ') ∧
       classify_as_request v σ' = (Ok true, σ')) ∧
  (∀ σ v,
     type_of σ v ≠ Some (TInst CreateDatabaseRequest) →
     type_of σ v ≠ Some (TInst AlterDatabaseRequest) →
     classify_as_request v σ = (Raise TypeMismatchError, σ)) ∧
  (∀ σ d o,
     ∃ v σ', new_Identifier d o σ = (Ok v, σ') ∧
       classify_as_request v σ' = (Raise TypeMismatchError, σ')).
Proof.
  split; [|split; [|split]].
  - intros c pos kw σ v σ' Hc Hcall.
    apply call_result in Hcall as (attrs & -> & ->).
    unfold isinstance, classify_as_request, type_of.
    rewrite lookup_alloc_0, bool_decide_eq_true_2 by done.
    split; [|done]. unfold known_variants in Hc.
    apply elem_of_cons in Hc as [->|Hc]; [done|].
    apply elem_of_cons in Hc as [->|Hc]; [done|]. by apply elem_of_nil in Hc.
  - intros σ n p _ _. eexists _, _.
    split; [apply new_CreateDatabaseRequest_eq|].
    unfold classify_as_request, type_of. by rewrite lookup_alloc_1.
  - intros σ v HC HA. unfold classify_as_request.
    destruct (type_of σ v) as [[| | |c]|]; try done.
    destruct c; done.
  - intros σ d o. eexists _, _. split; [apply new_Identifier_eq|].
    unfold classify_as_request, type_of. by rewrite lookup_alloc_0.
Qed.

(** Scenario 1 ([CreateDatabaseRequest(name="sales",
    properties={"owner":"team_a"})]) and a string, which is no request. *)
Lemma classify_as_request_variants_witness :
  (∃ v σ',
     new_CreateDatabaseRequest "sales" {[ "owner" := "team_a" ]} []
       = (Ok v, σ') ∧
     classify_as_request v σ' = (Ok true, σ')) ∧
  classify_as_request (VStr "sales") [] = (Raise TypeMismatchError, []).
Proof.
  destruct classify_as_request_variants as (_ & Hcreate & Hother & _).
  split.
  - apply (Hcreate [] "sales" {[ "owner" := "team_a" ]}).
    + discriminate.
    + vm_compute. intros H. discriminate H.
  - apply (Hother [] (VStr "sales")); simpl; discriminate.
Defined.

(** C10: [RESTRequest] derives from [ABC] and has no abstract method, so
    the call [RESTRequest()] returns a value; the value is an instance of
    [RESTRequest] and of neither [CreateDatabaseRequest] nor
    [AlterDatabaseRequest]. *)
Theorem RESTRequest_instantiable :
  issubclass RESTRequest ABC = true ∧
  abstractmethods RESTRequest = [] ∧
  ∀ σ, ∃ v σ', call RESTRequest [] ∅ σ = (Ok v, σ') ∧
    isinstance σ' v RESTRequest = true ∧
    isinstance σ' v CreateDatabaseRequest = false ∧
    isinstance σ' v AlterDatabaseRequest = false.
Proof.
  split; [done|]. split; [done|]. intros σ.
  exists (VRef (length σ)), (σ ++ [OInst RESTRequest ∅]).
  split; [unfold call, bind; by rewrite object_new_eq|].
  unfold isinstance, type_of. by rewrite lookup_alloc_0.
Qed.

(** ** Mutation *)

(** C6, as the code has it: construction is pure, in that a call of a class
    of the module adds objects at the end of the store and changes none
    that was there.  The values are not immutable: on an [Identifier], a
    [CreateDatabaseRequest] or an [AlterDatabaseRequest] just built, the
    assignment of any attribute succeeds and is read back. *)
Theorem construction_pure_values_assignable :
  (∀ c pos kw σ, ∃ τ, (call c pos kw σ).2 = σ ++ τ) ∧
  (∀ σ d o, ∃ v τ,
     new_Identifier d o σ = (Ok v, σ ++ τ) ∧
     assignable (σ ++ τ) v Identifier) ∧
  (∀ σ n p, ∃ v τ,
     new_CreateDatabaseRequest n p σ = (Ok v, σ ++ τ) ∧
     assignable (σ ++ τ) v CreateDatabaseRequest) ∧
  (∀ σ rs us, ∃ v τ,
     new_AlterDatabaseRequest rs us σ = (Ok v, σ ++ τ) ∧
     assignable (σ ++ τ) v AlterDatabaseRequest).
Proof.
  split; [|split; [|split]].
  - intros c pos kw σ. destruct (call_outcome c pos kw σ) as (τ & Hσ & _).
    eauto.
  - intros σ d o. eexists _, _. split; [apply new_Identifier_eq|].
    eapply assignable_instance, lookup_alloc_0.
  - intros σ n p. eexists _, _. split; [apply new_CreateDatabaseRequest_eq|].
    eapply assignable_instance, lookup_alloc_1.
  - intros σ rs us. eexists _, _. split; [apply new_AlterDatabaseRequest_eq|].
    eapply assignable_instance, lookup_alloc_2.
Qed.

(** C6 fails for [i = Identifier(database_name="sales",
    object_name="orders")] followed by [i.database_name = "hr"]: the
    assignment succeeds and the field, which read ["sales"], reads
    ["hr"]. *)
Lemma Identifier_field_reassigned :
  ∃ v σ1 σ2,
    new_Identifier "sales" "orders" [] = (Ok v, σ1) ∧
    py_getattr v "database_name" σ1 = (Ok (VStr "sales"), σ1) ∧
    py_setattr v "database_name" (VStr "hr") σ1 = (Ok (), σ2) ∧
    py_getattr v "database_name" σ2 = (Ok (VStr "hr"), σ2).
Proof.
  eexists _, _, _. split; [apply new_Identifier_eq|].
  split; [done|]. split; reflexivity.
Qed.

(** ** Removals *)

Lemma is_AlterDatabaseRequest_extend (σ τ : store) (v : pyval)
    (rs : list string) (us : gmap string string) :
  is_AlterDatabaseRequest σ v rs us → is_AlterDatabaseRequest (σ ++ τ) v rs us.
Proof.
  intros (attrs & (l & -> & Hl) & (r & Hr & Hrs) & (u & Hu & Hus)).
  exists attrs. split; [|split].
  - exists l. split; [done|]. by apply lookup_app_l_Some.
  - exists r. split; [done|]. by apply lookup_app_l_Some.
  - exists u. split; [done|]. by apply lookup_app_l_Some.
Qed.

Lemma removals_set_of (σ : store) (v : pyval) (rs : list string)
    (us : gmap string string) :
  is_AlterDatabaseRequest σ v rs us → removals_set σ v = Some (list_to_set rs).
Proof.
  intros (attrs & (l & -> & Hl) & (r & Hr & Hrs) & _).
  unfold removals_set, py_getattr. by rewrite Hl, Hr, Hrs.
Qed.

(** C7: [AlterDatabaseRequest] with [removals=["a","a"]] and with
    [removals=["a"]], the updates being the same, are both built, and the
    sets of their removals, which a consumer that deduplicates works from,
    are the same set [{"a"}]. *)
Theorem duplicate_removals_same_set (σ : store) (us : gmap string string) :
  ∃ v1 σ1 v2 σ2,
    new_AlterDatabaseRequest ["a"; "a"] us σ = (Ok v1, σ1) ∧
    new_AlterDatabaseRequest ["a"] us σ1 = (Ok v2, σ2) ∧
    is_AlterDatabaseRequest σ2 v1 ["a"; "a"] us ∧
    is_AlterDatabaseRequest σ2 v2 ["a"] us ∧
    removals_set σ2 v1 = removals_set σ2 v2 ∧
    removals_set σ2 v2 = Some {[ "a" ]}.
Proof.
  destruct (new_AlterDatabaseRequest_is ["a"; "a"] us σ) as (v1 & σ1 & Hnew1 & His1).
  destruct (new_AlterDatabaseRequest_is ["a"] us σ1) as (v2 & σ2 & Hnew2 & His2).
  exists v1, σ1, v2, σ2. split; [done|]. split; [done|].
  assert (is_AlterDatabaseRequest σ2 v1 ["a"; "a"] us) as His1'.
  { rewrite new_AlterDatabaseRequest_eq in Hnew2. injection Hnew2 as _ <-.
    by apply is_AlterDatabaseRequest_extend. }
  split; [done|]. split; [done|].
  rewrite (removals_set_of _ _ _ _ His1'), (removals_set_of _ _ _ _ His2).
  split; f_equal; set_solver.
Qed.

(** ** Equality *)

(** C8: [==] on two values of the same dataclass is the conjunction of the
    equalities of their fields: strings by content, the dicts by their
    entries, the lists by their items in order. *)
Theorem dataclass_eq_structural :
  (∀ k σ v w d1 o1 d2 o2,
     is_Identifier σ v d1 o1 → is_Identifier σ w d2 o2 →
     py_eq (2 + k) σ v w = Ok (bool_decide (d1 = d2 ∧ o1 = o2))) ∧
  (∀ k σ v w n1 p1 n2 p2,
     is_CreateDatabaseRequest σ v n1 p1 → is_CreateDatabaseRequest σ w n2 p2 →
     py_eq (2 + k) σ v w = Ok (bool_decide (n1 = n2 ∧ p1 = p2))) ∧
  (∀ k σ v w rs1 us1 rs2 us2,
     is_AlterDatabaseRequest σ v rs1 us1 → is_AlterDatabaseRequest σ w rs2 us2 →
     py_eq (2 + k) σ v w = Ok (bool_decide (rs1 = rs2 ∧ us1 = us2))).
Proof.
  split; [|split].
  - intros k σ v w d1 o1 d2 o2 (a1 & (l1 & -> & Hl1) & Hd1 & Ho1)
      (a2 & (l2 & -> & Hl2) & Hd2 & Ho2).
    change (2 + k) with (S (S k)).
    rewrite (py_eq_instances (S k) σ Identifier l1 l2 a1 a2
               [VStr d1; VStr o1] [VStr d2; VStr o2]); try done.
    + apply tuple_eq_pair; apply identical_or_str.
    + unfold astuple. simpl. by rewrite Hd1, Ho1.
    + unfold astuple. simpl. by rewrite Hd2, Ho2.
  - intros k σ v w n1 p1 n2 p2 (a1 & (l1 & -> & Hl1) & Hn1 & (r1 & Hp1 & Hr1))
      (a2 & (l2 & -> & Hl2) & Hn2 & (r2 & Hp2 & Hr2)).
    change (2 + k) with (S (S k)).
    rewrite (py_eq_instances (S k) σ CreateDatabaseRequest l1 l2 a1 a2
               [VStr n1; VRef r1] [VStr n2; VRef r2]); try done.
    + apply tuple_eq_pair; [apply identical_or_str|by apply identical_or_dict].
    + unfold astuple. simpl. by rewrite Hn1, Hp1.
    + unfold astuple. simpl. by rewrite Hn2, Hp2.
  - intros k σ v w rs1 us1 rs2 us2
      (a1 & (l1 & -> & Hl1) & (r1 & Hf1 & Hr1) & (u1 & Hg1 & Hu1))
      (a2 & (l2 & -> & Hl2) & (r2 & Hf2 & Hr2) & (u2 & Hg2 & Hu2)).
    change (2 + k) with (S (S k)).
    rewrite (py_eq_instances (S k) σ AlterDatabaseRequest l1 l2 a1 a2
               [VRef r1; VRef u1] [VRef r2; VRef u2]); try done.
    + apply tuple_eq_pair; [by apply identical_or_list|by apply identical_or_dict].
    + unfold astuple. simpl. by rewrite Hf1, Hg1.
    + unfold astuple. simpl. by rewrite Hf2, Hg2.
Qed.

Lemma dataclass_eq_structural_witness :
  is_Identifier
    [OInst Identifier {[ "database_name" := VStr "sales"; "object_name" := VStr "orders" ]};
     OInst Identifier {[ "database_name" := VStr "sales"; "object_name" := VStr "orders" ]}]
    (VRef 0) "sales" "orders" ∧
  is_Identifier
    [OInst Identifier {[ "database_name" := VStr "sales"; "object_name" := VStr "orders" ]};
     OInst Identifier {[ "database_name" := VStr "sales"; "object_name" := VStr "orders" ]}]
    (VRef 1) "sales" "orders" ∧
  py_eq 2
    [OInst Identifier {[ "database_name" := VStr "sales"; "object_name" := VStr "orders" ]};
     OInst Identifier {[ "database_name" := VStr "sales"; "object_name" := VStr "orders" ]}]
    (VRef 0) (VRef 1)
  = Ok (bool_decide ("sales" = "sales" ∧ "orders" = "orders")).
Proof.
  assert (∀ P Q : Prop, P → (P → Q) → P ∧ Q) as both by tauto.
  apply both; [|intros His0; apply both; [|intros His1]].
  - eexists. split; [eexists; split; reflexivity|split; reflexivity].
  - eexists. split; [eexists; split; reflexivity|split; reflexivity].
  - exact (proj1 dataclass_eq_structural 0 _ (VRef 0) (VRef 1) _ _ _ _ His0 His1).
Defined.

(** ** Further facts about construction *)

(** Positional and keyword arguments build the same [Identifier]. *)
Lemma Identifier_positional (d o : string) (σ : store) :
  call Identifier [VStr d; VStr o] ∅ σ = new_Identifier d o σ.
Proof.
  rewrite new_Identifier_eq, call_dataclass by done.
  change (field_names Identifier) with ["database_name"; "object_name"].
  by rewrite bind_args_positional.
Qed.

(** A call of a class of the module raises nothing but the [TypeError] of
    arguments that do not match the fields. *)
Lemma call_raises_TypeError_only (c : pyclass) (pos : list pyval)
    (kw : gmap string pyval) (σ : store) (e : exn) :
  (call c pos kw σ).1 = Raise e → e = TypeError.
Proof.
  destruct (generates_init c) eqn:Hinit.
  - rewrite call_dataclass by done. destruct (bind_args _ _ _); simpl; congruence.
  - unfold call, bind, object_new, object_init. rewrite Hinit, andb_true_r.
    destruct (excess_args pos kw); simpl; [congruence|].
    rewrite abstractmethods_none. simpl. congruence.
Qed.

(** The constructor stores the reference it is given, not a copy: an entry
    that the caller adds to the dict afterwards is an entry of the
    request's [properties]. *)
Lemma properties_shared_with_caller (σ : store) (n : string) (r : loc)
    (p : gmap string string) (k x : string) :
  σ !! r = Some (ODict p) →
  ∃ v σ1 σ2,
    call CreateDatabaseRequest [VStr n; VRef r] ∅ σ = (Ok v, σ1) ∧
    is_CreateDatabaseRequest σ1 v n p ∧
    dict_setitem (VRef r) k x σ1 = (Ok (), σ2) ∧
    is_CreateDatabaseRequest σ2 v n (<[k := x]> p).
Proof.
  intros Hr. assert (r < length σ) as Hlt by (by eapply lookup_lt_Some).
  rewrite call_dataclass by done.
  change (field_names CreateDatabaseRequest) with ["name"; "properties"].
  rewrite bind_args_positional. simpl.
  eexists _, _, _. split; [done|]. split; [|split].
  - eexists. split; [eexists; split; [done|apply lookup_alloc_0]|].
    split; [done|]. exists r. split; [done|]. by apply lookup_app_l_Some.
  - unfold dict_setitem. by rewrite (lookup_app_l_Some _ _ _ _ Hr).
  - eexists. split; [eexists; split; [done|]|].
    + rewrite list_lookup_insert_ne by lia. apply lookup_alloc_0.
    + split; [done|]. exists r. split; [done|].
      apply list_lookup_insert_eq. rewrite length_app. lia.
Qed.

(** * Further properties of the module *)

(** ** The signature of the generated [__init__] *)

Lemma accepted_nil (pos : list pyval) (kw : gmap string pyval) :
  accepted [] pos kw ↔ pos = [] ∧ kw = ∅.
Proof.
  unfold accepted. split.
  - intros [Hlen Hdom]. destruct pos; simpl in *; [|lia].
    split; [done|]. by apply (dom_empty_iff_L (D := gset string)).
  - intros [-> ->]. split; [done|]. by rewrite dom_empty_L.
Qed.

Lemma accepted_cons_positional (p : string) (ps : list string) (x : pyval)
    (xs : list pyval) (kw : gmap string pyval) :
  p ∉ ps →
  accepted (p :: ps) (x :: xs) kw ↔ kw !! p = None ∧ accepted ps xs kw.
Proof.
  intros Hp. unfold accepted. simpl. split.
  - intros [Hlen Hdom]. split; [|split; [lia|done]].
    apply (not_elem_of_dom (D := gset string)). rewrite Hdom, elem_of_list_to_set.
    intros Hin. apply Hp. by eapply subseteq_drop.
  - intros (_ & Hlen & Hdom). split; [lia|done].
Qed.

Lemma accepted_cons_keyword (p : string) (ps : list string)
    (kw : gmap string pyval) :
  p ∉ ps →
  accepted (p :: ps) [] kw ↔ is_Some (kw !! p) ∧ accepted ps [] (delete p kw).
Proof.
  intros Hp. unfold accepted. simpl. rewrite !drop_0, dom_delete_L.
  assert (p ∉ (list_to_set ps : gset string)) as Hout
    by (by rewrite elem_of_list_to_set).
  rewrite <- (elem_of_dom (D := gset string)).
  split.
  - intros [_ Hdom]. rewrite Hdom. split; [|split; [lia|]].
    + apply elem_of_union_l. by apply elem_of_singleton.
    + apply set_eq. intros q.
      rewrite elem_of_difference, elem_of_union, elem_of_singleton.
      split; [intros [[->|Hq] Hne]; done|].
      intros Hq. split; [by right|]. by intros ->.
  - intros (Hin & _ & Hdom). split; [lia|]. rewrite <- Hdom.
    apply set_eq. intros q.
    rewrite elem_of_union, elem_of_difference, elem_of_singleton.
    split; [|intros [->|[Hq _]]; done].
    intros Hq. destruct (decide (q = p)) as [->|Hne]; [by left|by right].
Qed.

Lemma omap_lookup_delete (p : string) (ps : list string) (kw : gmap string pyval) :
  p ∉ ps → omap (λ f, delete p kw !! f) ps = omap (λ f, kw !! f) ps.
Proof.
  intros Hp. induction ps as [|q ps IH]; [done|].
  apply not_elem_of_cons in Hp as [Hpq Hp]. cbn.
  rewrite lookup_delete_ne by done. by rewrite IH.
Qed.

(** Binding succeeds exactly on the accepted calls, and then gives each
    parameter its argument. *)
Lemma bind_args_spec (params : list string) (pos : list pyval)
    (kw : gmap string pyval) :
  NoDup params →
  bind_args params pos kw =
    if decide (accepted params pos kw)
    then Some (zip params (arguments_in_order params pos kw))
    else None.
Proof.
  intros Hnd. revert pos kw.
  induction Hnd as [|p ps Hp Hnd IH]; intros pos kw.
  - destruct (decide (accepted [] pos kw)) as [Hacc|Hacc].
    + apply accepted_nil in Hacc as [-> ->]. simpl. by rewrite decide_True.
    + destruct pos as [|x xs]; simpl; [|done].
      case_decide as Hkw; [|done]. destruct Hacc. by apply accepted_nil.
  - destruct pos as [|x xs]; cbn [bind_args].
    + destruct (kw !! p) as [x|] eqn:Hkw.
      * rewrite IH.
        destruct (decide (accepted ps [] (delete p kw))) as [Hacc|Hacc];
          destruct (decide (accepted (p :: ps) [] kw)) as [Hacc'|Hacc'].
        -- unfold arguments_in_order. cbn [length drop app].
           rewrite omap_lookup_delete by done. cbn. by rewrite Hkw.
        -- destruct Hacc'. apply accepted_cons_keyword; eauto.
        -- destruct Hacc. by apply accepted_cons_keyword in Hacc' as [_ ?].
        -- done.
      * destruct (decide (accepted (p :: ps) [] kw)) as [Hacc|Hacc]; [|done].
        apply accepted_cons_keyword in Hacc as [[y Hy] _]; [congruence|done].
    + destruct (kw !! p) as [y|] eqn:Hkw.
      * destruct (decide (accepted (p :: ps) (x :: xs) kw)) as [Hacc|Hacc]; [|done].
        apply accepted_cons_positional in Hacc as [Hnone _]; [congruence|done].
      * rewrite IH.
        destruct (decide (accepted ps xs kw)) as [Hacc|Hacc];
          destruct (decide (accepted (p :: ps) (x :: xs) kw)) as [Hacc'|Hacc'].
        -- done.
        -- destruct Hacc'. by apply accepted_cons_positional.
        -- destruct Hacc. by apply accepted_cons_positional in Hacc' as [_ ?].
        -- done.
Qed.

Lemma field_names_NoDup (c : pyclass) : NoDup (field_names c).
Proof. destruct c; by apply (bool_decide_unpack _). Qed.

Lemma init_fields_map (bound : list (string * pyval))
    (attrs : gmap string pyval) :
  NoDup bound.*1 →
  foldl (λ a fx, <[fx.1 := fx.2]> a) attrs bound = list_to_map bound ∪ attrs.
Proof.
  revert attrs. induction bound as [|[f x] bound IH]; intros attrs Hnd.
  - simpl. by rewrite (left_id_L ∅ (∪)).
  - apply NoDup_cons in Hnd as [Hf Hnd]. simpl. rewrite IH by done.
    rewrite <- insert_union_l. symmetry. apply insert_union_r.
    by apply not_elem_of_list_to_map_1.
Qed.

Lemma omap_lookup_length (l : list string) (kw : gmap string pyval) :
  (∀ f, f ∈ l → is_Some (kw !! f)) →
  length (omap (λ f, kw !! f) l) = length l.
Proof.
  induction l as [|f l IH]; intros Hall; [done|]. cbn.
  destruct (Hall f) as [x ->]; [by left|]. simpl. f_equal.
  apply IH. intros g Hg. apply Hall. by right.
Qed.

Lemma accepted_keywords (params : list string) (pos : list pyval)
    (kw : gmap string pyval) (f : string) :
  accepted params pos kw →
  f ∈ drop (length pos) params ↔ is_Some (kw !! f).
Proof.
  intros [_ Hdom]. rewrite <- (elem_of_dom (D := gset string)), Hdom.
  by rewrite elem_of_list_to_set.
Qed.

Lemma accepted_length (params : list string) (pos : list pyval)
    (kw : gmap string pyval) :
  accepted params pos kw →
  length (arguments_in_order params pos kw) = length params.
Proof.
  intros Hacc. unfold arguments_in_order.
  rewrite length_app, omap_lookup_length, length_drop.
  - destruct Hacc as [Hlen _]. lia.
  - intros f Hf. by apply (accepted_keywords params pos kw f Hacc).
Qed.

(** A call of a class of the module, in full: the arguments are accepted
    or they are not, and nothing about the values is looked at. *)
Lemma call_eq (c : pyclass) (pos : list pyval) (kw : gmap string pyval)
    (σ : store) :
  generates_init c = true →
  call c pos kw σ =
    if decide (accepted (field_names c) pos kw)
    then (Ok (VRef (length σ)),
          σ ++ [OInst c (list_to_map
                  (zip (field_names c)
                       (arguments_in_order (field_names c) pos kw)))])
    else (Raise TypeError, σ ++ [OInst c ∅]).
Proof.
  intros Hinit. rewrite call_dataclass by done.
  rewrite bind_args_spec by apply field_names_NoDup.
  case_decide as Hacc; [|done].
  rewrite init_fields_map, (right_id_L ∅ (∪)); [done|].
  rewrite fst_zip; [apply field_names_NoDup|].
  by rewrite accepted_length.
Qed.

(** X1: a call of a class of the module returns a new object exactly when
    its arguments are accepted, that is when every field gets one value
    (no argument at all for [RESTRequest]); every other call raises
    [TypeError].  The values of the arguments play no part. *)
Theorem call_accepts_exactly (c : pyclass) (pos : list pyval)
    (kw : gmap string pyval) (σ : store) :
  (call c pos kw σ).1 =
    if decide (accepted (field_names c) pos kw)
    then Ok (VRef (length σ)) else Raise TypeError.
Proof.
  destruct (generates_init c) eqn:Hinit.
  - rewrite call_eq by done. by case_decide.
  - assert (field_names c = []) as -> by (by destruct c).
    unfold call, bind, object_new, object_init. rewrite Hinit, andb_true_r.
    unfold excess_args.
    destruct (decide (accepted [] pos kw)) as [Hacc|Hacc].
    + apply accepted_nil in Hacc. rewrite bool_decide_eq_true_2 by done.
      simpl. by rewrite abstractmethods_none.
    + rewrite bool_decide_eq_false_2; [done|]. by rewrite <- accepted_nil.
Qed.




Lemma omap_lookup_insert (k : string) (x : pyval) (l : list string)
    (m : gmap string pyval) :
  k ∉ l → omap (λ f, <[k := x]> m !! f) l = omap (λ f, m !! f) l.
Proof.
  intros Hk. induction l as [|q l IH]; [done|].
  apply not_elem_of_cons in Hk as [Hkq Hk]. cbn.
  rewrite lookup_insert_ne by done. by rewrite IH.
Qed.

Lemma omap_lookup_zip (ks : list string) (vs : list pyval) :
  NoDup ks → length ks = length vs →
  omap (λ f, (list_to_map (zip ks vs) : gmap string pyval) !! f) ks = vs.
Proof.
  intros Hnd. revert vs. induction Hnd as [|k ks Hk Hnd IH]; intros vs Hlen.
  - by destruct vs.
  - destruct vs as [|x vs]; [done|]. injection Hlen as Hlen.
    cbn [zip zip_with list_to_map foldr]. simpl. cbn.
    rewrite lookup_insert_eq. rewrite omap_lookup_insert by done.
    by rewrite IH.
Qed.

(** X3: however the arguments of an accepted call are split between
    positions and keywords, the call is the call with all of them passed by
    position in the order of the fields, and the call with all of them
    passed by keyword. *)
Theorem call_positional_or_keyword (c : pyclass) (pos : list pyval)
    (kw : gmap string pyval) (σ : store) :
  accepted (field_names c) pos kw →
  call c pos kw σ =
    call c (arguments_in_order (field_names c) pos kw) ∅ σ ∧
  call c pos kw σ =
    call c [] (list_to_map
                 (zip (field_names c)
                      (arguments_in_order (field_names c) pos kw))) σ.
Proof.
  intros Hacc.
  pose proof (accepted_length _ _ _ Hacc) as Hlen.
  pose proof (field_names_NoDup c) as Hnd.
  destruct (generates_init c) eqn:Hinit.
  - assert (accepted (field_names c)
              (arguments_in_order (field_names c) pos kw) ∅) as Hpos.
    { split; [lia|]. by rewrite Hlen, drop_all, dom_empty_L. }
    assert (accepted (field_names c) []
              (list_to_map (zip (field_names c)
                 (arguments_in_order (field_names c) pos kw)))) as Hkw.
    { split; [simpl; lia|]. simpl. rewrite drop_0, dom_list_to_map_L.
      by rewrite fst_zip by lia. }
    assert (arguments_in_order (field_names c)
              (arguments_in_order (field_names c) pos kw) ∅
            = arguments_in_order (field_names c) pos kw) as Epos.
    { unfold arguments_in_order at 1. rewrite Hlen, drop_all. simpl.
      by rewrite app_nil_r. }
    assert (arguments_in_order (field_names c) []
              (list_to_map (zip (field_names c)
                 (arguments_in_order (field_names c) pos kw)))
            = arguments_in_order (field_names c) pos kw) as Ekw.
    { unfold arguments_in_order at 1. cbn [length drop app].
      by rewrite omap_lookup_zip. }
    rewrite !call_eq, !decide_True by done. by rewrite Epos, Ekw.
  - assert (field_names c = []) as Hnil by (by destruct c).
    rewrite Hnil in *. apply accepted_nil in Hacc as [-> ->]. done.
Qed.

(** ** Equality as a relation *)

Lemma identical_or_sym (eq : pyval → pyval → result bool) (x y : pyval) :
  eq x y = eq y x → identical_or eq x y = identical_or eq y x.
Proof.
  intros Heq. destruct x as [a|l1], y as [b|l2]; simpl; try done.
  destruct (decide (l1 = l2)) as [->|Hne].
  - by rewrite decide_True.
  - by rewrite decide_False by congruence.
Qed.

Lemma tuple_eq_sym (eq : pyval → pyval → result bool) (t1 t2 : list pyval) :
  (∀ x y, eq x y = eq y x) → tuple_eq eq t1 t2 = tuple_eq eq t2 t1.
Proof.
  intros Heq. revert t2. induction t1 as [|x t1 IH]; intros [|y t2]; try done.
  simpl. rewrite (identical_or_sym eq x y) by done.
  destruct (identical_or eq y x) as [[|]|e]; [apply IH|done|done].
Qed.

(** X4: [==] is symmetric on all values, at every recursion depth, errors
    included. *)
Theorem py_eq_sym (depth : nat) (σ : store) (v w : pyval) :
  py_eq depth σ v w = py_eq depth σ w v.
Proof.
  revert v w. induction depth as [|n IH]; intros v w; [done|].
  destruct v as [a|l1], w as [b|l2]; simpl; try done.
  - f_equal. apply bool_decide_ext. naive_solver.
  - assert (bool_decide (l1 = l2) = bool_decide (l2 = l1)) as Hid
      by (apply bool_decide_ext; naive_solver).
    destruct (σ !! l1) as [[d1|xs1|c1 a1]|], (σ !! l2) as [[d2|xs2|c2 a2]|];
      rewrite ?Hid; try done.
    + f_equal. apply bool_decide_ext. naive_solver.
    + f_equal. apply bool_decide_ext. naive_solver.
    + destruct (decide (c1 = c2)) as [->|Hne].
      * rewrite bool_decide_eq_true_2 by done.
        destruct (generates_eq c2); simpl; [|done].
        destruct (astuple c2 a1), (astuple c2 a2); try done.
        by apply tuple_eq_sym.
      * rewrite (bool_decide_eq_false_2 (c1 = c2)), (bool_decide_eq_false_2 (c2 = c1))
          by congruence.
        by rewrite !andb_false_r.
Qed.

Lemma tuple_eq_refl (k : nat) (σ : store) (t : list pyval) :
  tuple_eq (py_eq (S k) σ) t t = Ok true.
Proof.
  induction t as [|x t IH]; [done|]. cbn [tuple_eq].
  assert (identical_or (py_eq (S k) σ) x x = Ok true) as ->; [|done].
  destruct x as [a|l]; simpl.
  - by rewrite bool_decide_eq_true_2.
  - by rewrite decide_True.
Qed.

(** X5: a value is equal to itself, provided that, when it is an instance,
    none of its fields has been lost. *)
Theorem py_eq_refl (k : nat) (σ : store) (v : pyval) :
  (∀ l c attrs, v = VRef l → σ !! l = Some (OInst c attrs) →
     is_Some (astuple c attrs)) →
  py_eq (2 + k) σ v v = Ok true.
Proof.
  intros Hfields. destruct v as [a|l]; cbn [Nat.add py_eq].
  - by rewrite bool_decide_eq_true_2.
  - destruct (σ !! l) as [[d|xs|c attrs]|] eqn:Hl;
      rewrite ?bool_decide_eq_true_2 by done; try done.
    destruct (generates_eq c); simpl; [|done].
    destruct (Hfields l c attrs eq_refl Hl) as [t ->].
    apply tuple_eq_refl.
Qed.

(** X6: two values of different run-time types are never equal, whatever
    their fields hold: an [Identifier] is equal to no request, a
    [CreateDatabaseRequest] to no [AlterDatabaseRequest], an instance to no
    string. *)
Theorem py_eq_across_types (k : nat) (σ : store) (v w : pyval) :
  type_of σ v ≠ type_of σ w → py_eq (S k) σ v w = Ok false.
Proof.
  intros Hty. destruct v as [a|l1], w as [b|l2]; simpl in *; try done.
  assert (l1 ≠ l2) as Hne by (by intros ->).
  destruct (σ !! l1) as [[d1|xs1|c1 a1]|], (σ !! l2) as [[d2|xs2|c2 a2]|];
    rewrite ?(bool_decide_eq_false_2 (l1 = l2)) by done; try done.
  rewrite (bool_decide_eq_false_2 (c1 = c2)) by congruence.
  by rewrite andb_false_r.
Qed.

Lemma generates_eq_init (c : pyclass) : generates_eq c = generates_init c.
Proof. by destruct c. Qed.

Lemma accepted_astuple (c : pyclass) (pos : list pyval)
    (kw : gmap string pyval) :
  accepted (field_names c) pos kw →
  is_Some (astuple c (list_to_map
             (zip (field_names c)
                  (arguments_in_order (field_names c) pos kw)))).
Proof.
  intros Hacc. unfold astuple. apply mapM_is_Some, Forall_forall.
  intros f Hf. simpl. apply (elem_of_dom (D := gset string)).
  rewrite dom_list_to_map_L, fst_zip by (by rewrite accepted_length).
  by apply elem_of_list_to_set.
Qed.

(** X7: calling a dataclass of the module twice with the same accepted
    arguments gives two distinct objects that are equal. *)
Theorem equal_arguments_equal_values (k : nat) (c : pyclass)
    (pos : list pyval) (kw : gmap string pyval) (σ : store) :
  generates_eq c = true → accepted (field_names c) pos kw →
  ∃ v1 σ1 v2 σ2,
    call c pos kw σ = (Ok v1, σ1) ∧ call c pos kw σ1 = (Ok v2, σ2) ∧
    v1 ≠ v2 ∧ py_eq (2 + k) σ2 v1 v2 = Ok true.
Proof.
  intros Heq Hacc. assert (generates_init c = true) as Hinit
    by (by rewrite <- generates_eq_init).
  destruct (accepted_astuple c pos kw Hacc) as [t Ht].
  set (attrs := list_to_map
         (zip (field_names c) (arguments_in_order (field_names c) pos kw)))
    in Ht.
  eexists _, _, _, _. rewrite !call_eq, !decide_True by done.
  fold attrs. split; [done|]. split; [done|]. split.
  - rewrite length_app. simpl. intros [= Hlen]. lia.
  - change (2 + k) with (S (S k)).
    rewrite (py_eq_instances (S k) _ c (length σ)
               (length (σ ++ [OInst c attrs])) attrs attrs t t Heq); try done.
    + apply tuple_eq_refl.
    + rewrite <- app_assoc. apply lookup_alloc_0.
    + apply lookup_alloc_0.
Qed.

(** X8: a class without a generated [__eq__], [RESTRequest] for one,
    compares by identity: two calls without arguments give two objects that
    are not equal, each being equal to itself. *)
Theorem plain_instances_equal_by_identity (k : nat) (c : pyclass) (σ : store) :
  generates_eq c = false →
  ∃ v1 σ1 v2 σ2,
    call c [] ∅ σ = (Ok v1, σ1) ∧ call c [] ∅ σ1 = (Ok v2, σ2) ∧
    py_eq (S k) σ2 v1 v2 = Ok false ∧
    py_eq (S k) σ2 v1 v1 = Ok true ∧ py_eq (S k) σ2 v2 v2 = Ok true.
Proof.
  intros Heq. assert (generates_init c = false) as Hinit
    by (by rewrite <- generates_eq_init).
  assert (∀ τ, call c [] ∅ τ = (Ok (VRef (length τ)), τ ++ [OInst c ∅])) as Hcall.
  { intros τ. unfold call, bind, object_new, object_init.
    rewrite Hinit, abstractmethods_none. done. }
  eexists _, _, _, _. rewrite !Hcall.
  split; [done|]. split; [done|].
  assert (((σ ++ [OInst c ∅]) ++ [OInst c ∅]) !! length σ = Some (OInst c ∅))
    as H1 by (rewrite <- app_assoc; apply lookup_alloc_0).
  assert (((σ ++ [OInst c ∅]) ++ [OInst c ∅]) !! length (σ ++ [OInst c ∅])
          = Some (OInst c ∅)) as H2 by apply lookup_alloc_0.
  simpl. rewrite H1, H2, Heq. simpl.
  rewrite bool_decide_eq_false_2, !bool_decide_eq_true_2; [done..|].
  rewrite length_app. simpl. lia.
Qed.

(** ** Assignment *)


(** X10: two [Identifier]s built from the same strings are equal; after
    [database_name] of the first is assigned the string [d'], they are
    equal exactly when [d'] is the string they were built from. *)
Theorem equality_follows_assignment (k : nat) (σ : store) (d o d' : string) :
  ∃ v1 σ1 v2 σ2 σ3,
    new_Identifier d o σ = (Ok v1, σ1) ∧
    new_Identifier d o σ1 = (Ok v2, σ2) ∧
    py_eq (2 + k) σ2 v1 v2 = Ok true ∧
    py_setattr v1 "database_name" (VStr d') σ2 = (Ok (), σ3) ∧
    py_eq (2 + k) σ3 v1 v2 = Ok (bool_decide (d' = d)).
Proof.
  set (attrs := ({[ "database_name" := VStr d; "object_name" := VStr o ]}
                 : gmap string pyval)).
  assert (((σ ++ [OInst Identifier attrs]) ++ [OInst Identifier attrs])
            !! length σ = Some (OInst Identifier attrs)) as H1
    by (rewrite <- app_assoc; apply lookup_alloc_0).
  assert (((σ ++ [OInst Identifier attrs]) ++ [OInst Identifier attrs])
            !! length (σ ++ [OInst Identifier attrs])
          = Some (OInst Identifier attrs)) as H2 by apply lookup_alloc_0.
  destruct (assign_then_read _ _ _ _ "database_name" (VStr d') H1) as [Hset _].
  eexists _, _, _, _, _. rewrite !new_Identifier_eq. fold attrs.
  split; [done|]. split; [done|]. split; [|split; [apply Hset|]];
    change (2 + k) with (S (S k)).
  - rewrite (py_eq_instances (S k) _ Identifier _ _ attrs attrs
               [VStr d; VStr o] [VStr d; VStr o]); try done.
    apply tuple_eq_refl.
  - rewrite (py_eq_instances (S k) _ Identifier (length σ)
               (length (σ ++ [OInst Identifier attrs]))
               (<["database_name" := VStr d']> attrs) attrs
               [VStr d'; VStr o] [VStr d; VStr o]); try done.
    + rewrite (tuple_eq_pair _ _ _ _ _ (d' = d) (o = o));
        try apply identical_or_str.
      f_equal. apply bool_decide_ext.
      split; [intros [Hd _]; exact Hd|intros Hd; split; [exact Hd|reflexivity]].
    + apply list_lookup_insert_eq. rewrite !length_app. simpl. lia.
    + rewrite list_lookup_insert_ne; [done|]. rewrite length_app. simpl. lia.
Qed.

(** ** The hierarchy *)

(** X11: [issubclass] is a partial order on the classes in scope, with
    [object] on top; [CreateDatabaseRequest] and [AlterDatabaseRequest] are
    below [RESTRequest] and [Identifier] is not. *)
Theorem issubclass_order :
  (∀ c, issubclass c c = true) ∧
  (∀ c d e, issubclass c d = true → issubclass d e = true →
     issubclass c e = true) ∧
  (∀ c d, issubclass c d = true → issubclass d c = true → c = d) ∧
  (∀ c, issubclass c object = true) ∧
  (∀ c, issubclass c RESTRequest =
     bool_decide (c ∈ [RESTRequest; CreateDatabaseRequest;
                       AlterDatabaseRequest])).
Proof.
  split; [|split; [|split; [|split]]].
  - by intros [].
  - by intros [] [] [].
  - by intros [] [].
  - by intros [].
  - by intros [].
Qed.

(** X12: an instance of a class is an instance of every class above it:
    whatever passes [isinstance] for [CreateDatabaseRequest] or
    [AlterDatabaseRequest] passes it for [RESTRequest], [ABC] and
    [object]. *)
Theorem isinstance_upward (σ : store) (v : pyval) (c d : pyclass) :
  isinstance σ v c = true → issubclass c d = true → isinstance σ v d = true.
Proof.
  unfold isinstance.
  destruct (type_of σ v) as [[| | |c']|]; try done;
    try (intros ->%bool_decide_eq_true; by destruct d).
  by destruct c', c, d.
Qed.

(** ** Instances of the statements above *)


Lemma call_positional_or_keyword_witness :
  call Identifier [VStr "sales"] {[ "object_name" := VStr "orders" ]} []
    = call Identifier [VStr "sales"; VStr "orders"] ∅ [] ∧
  call Identifier [VStr "sales"] {[ "object_name" := VStr "orders" ]} []
    = call Identifier []
        {[ "database_name" := VStr "sales"; "object_name" := VStr "orders" ]} [].
Proof.
  assert (accepted (field_names Identifier) [VStr "sales"]
            {[ "object_name" := VStr "orders" ]}) as Hacc
    by (split; [simpl; lia|vm_compute; reflexivity]).
  exact (call_positional_or_keyword Identifier [VStr "sales"]
           {[ "object_name" := VStr "orders" ]} [] Hacc).
Defined.

Lemma py_eq_refl_witness :
  py_eq 2
    [OInst Identifier
       {[ "database_name" := VStr "sales"; "object_name" := VStr "orders" ]}]
    (VRef 0) (VRef 0) = Ok true.
Proof.
  apply (py_eq_refl 0). intros l c attrs [= <-] [= <- <-].
  eexists. vm_compute. reflexivity.
Defined.

Lemma py_eq_across_types_witness :
  py_eq 1
    [OInst Identifier {[ "database_name" := VStr "a"; "object_name" := VStr "b" ]};
     OInst CreateDatabaseRequest {[ "name" := VStr "a"; "properties" := VStr "b" ]}]
    (VRef 0) (VRef 1) = Ok false.
Proof. apply (py_eq_across_types 0). simpl. discriminate. Defined.

Lemma equal_arguments_equal_values_witness :
  ∃ v1 σ1 v2 σ2,
    call Identifier [VStr "sales"] {[ "object_name" := VStr "orders" ]} []
      = (Ok v1, σ1) ∧
    call Identifier [VStr "sales"] {[ "object_name" := VStr "orders" ]} σ1
      = (Ok v2, σ2) ∧
    v1 ≠ v2 ∧ py_eq 2 σ2 v1 v2 = Ok true.
Proof.
  apply (equal_arguments_equal_values 0 Identifier); [reflexivity|].
  split; [simpl; lia|vm_compute; reflexivity].
Defined.

Lemma plain_instances_equal_by_identity_witness :
  ∃ v1 σ1 v2 σ2,
    call RESTRequest [] ∅ [] = (Ok v1, σ1) ∧
    call RESTRequest [] ∅ σ1 = (Ok v2, σ2) ∧
    py_eq 1 σ2 v1 v2 = Ok false ∧
    py_eq 1 σ2 v1 v1 = Ok true ∧ py_eq 1 σ2 v2 v2 = Ok true.
Proof. apply (plain_instances_equal_by_identity 0 RESTRequest). reflexivity. Defined.


Lemma properties_shared_with_caller_witness :
  ∃ v σ1 σ2,
    call CreateDatabaseRequest [VStr "sales"; VRef 0] ∅
      [ODict {[ "owner" := "team_a" ]}] = (Ok v, σ1) ∧
    is_CreateDatabaseRequest σ1 v "sales" {[ "owner" := "team_a" ]} ∧
    dict_setitem (VRef 0) "region" "us-east" σ1 = (Ok (), σ2) ∧
    is_CreateDatabaseRequest σ2 v "sales"
      (<["region" := "us-east"]> {[ "owner" := "team_a" ]}).
Proof.
  apply (properties_shared_with_caller [ODict {[ "owner" := "team_a" ]}]
           "sales" 0 {[ "owner" := "team_a" ]} "region" "us-east").
  reflexivity.
Defined.

Lemma issubclass_order_witness :
  issubclass CreateDatabaseRequest object = true.
Proof.
  destruct issubclass_order as (_ & Htrans & _).
  apply (Htrans CreateDatabaseRequest RESTRequest object); reflexivity.
Defined.

Lemma isinstance_upward_witness :
  isinstance [OInst AlterDatabaseRequest ∅] (VRef 0) RESTRequest = true.
Proof.
  apply (isinstance_upward _ _ AlterDatabaseRequest RESTRequest); reflexivity.
Defined.
